(** * MicrophoneVisualizer: a model of the React component and its
      interaction with wavesurfer.js, the record plugin and the toast surface.

    Two variants of the component are embedded:
    - [Basic]: the component without waveform styles (one instance per mount);
    - [Rich]:  [src/components/MicrophoneVisualizer.tsx], with waveform styles
      and [initializeWaveSurfer].

    The component's own state (refs and [useState] cells) is a record.  Every
    call the component makes to something it does not define (the visualizer
    library, the record plugin, [toast], [console.error], the React state
    setters) is appended to a call history, so that the order of the calls can
    be stated.  What the library does with these calls is read off the history
    by the functions of section [Library]. *)

From stdpp Require Import gmap strings list fin_maps.

Open Scope string_scope.

(** ** Values and object literals *)

Inductive Value :=
| VStr (s : string)
| VNum (n : Z)
| VBool (b : bool)
| VNode
| VUndefined.

#[global] Instance Value_eq_dec : EqDecision Value.
Proof. solve_decision. Defined.

(** A JavaScript object literal with string keys. *)
Abbreviation Obj := (gmap string Value).

(** Property access [o.k]: a missing property reads as [undefined]. *)
Definition prop (o : Obj) (k : string) : Value := default VUndefined (o !! k).

(** ** The two constant tables *)

Definition visualizerThemes : gmap string Obj :=
  {[ "classic" := {[ "waveColor" := VStr "#9b87f5";
                     "progressColor" := VStr "#7E69AB";
                     "cursorColor" := VStr "transparent" ]};
     "neon" := {[ "waveColor" := VStr "#33C3F0";
                  "progressColor" := VStr "#0EA5E9";
                  "cursorColor" := VStr "transparent" ]};
     "sunset" := {[ "waveColor" := VStr "#F97316";
                    "progressColor" := VStr "#D946EF";
                    "cursorColor" := VStr "transparent" ]} ]}.

Definition waveformTypes : gmap string Obj :=
  {[ "bars" := {[ "barWidth" := VNum 2; "barGap" := VNum 3;
                  "barRadius" := VNum 3; "wave" := VBool false ]};
     "line" := {[ "barWidth" := VNum 0; "wave" := VBool true ]};
     "points" := {[ "barWidth" := VNum 1; "barGap" := VNum 4;
                    "barRadius" := VNum 50; "wave" := VBool false ]};
     "rounded" := {[ "barWidth" := VNum 3; "barGap" := VNum 2;
                     "barRadius" := VNum 30; "wave" := VBool false ]} ]}.

(** [keyof typeof visualizerThemes] and [keyof typeof waveformTypes]. *)
Inductive Theme := classic | neon | sunset.
Inductive WaveformType := bars | line | points | rounded.

#[global] Instance Theme_eq_dec : EqDecision Theme.
Proof. solve_decision. Defined.
#[global] Instance WaveformType_eq_dec : EqDecision WaveformType.
Proof. solve_decision. Defined.

Definition theme_key (t : Theme) : string :=
  match t with classic => "classic" | neon => "neon" | sunset => "sunset" end.

Definition waveform_key (w : WaveformType) : string :=
  match w with
  | bars => "bars" | line => "line" | points => "points" | rounded => "rounded"
  end.

(** [visualizerThemes[t]] and [waveformTypes[w]]. *)
Definition theme_preset (t : Theme) : Obj :=
  default ∅ (visualizerThemes !! theme_key t).

Definition waveform_preset (w : WaveformType) : Obj :=
  default ∅ (waveformTypes !! waveform_key w).

(** ** Calls to the outside *)

Inductive Permission := Granted | Denied.

Record Toast := mkToast {
  title : string;
  description : string;
  variant : option string
}.

Definition toast_started : Toast :=
  mkToast "Recording started" "Your microphone is now active" None.
Definition toast_denied : Toast :=
  mkToast "Permission denied"
          "Please allow microphone access to use this feature"
          (Some "destructive").
Definition toast_stopped : Toast :=
  mkToast "Recording stopped" "Your microphone is now inactive" None.

(** Handles of visualizer instances.  The record plugin registered on an
    instance is named by the handle of that instance. *)
Abbreviation Handle := nat.

Inductive Call :=
| CCreate (h : Handle) (options : Obj)        (* WaveSurfer.create(options)      *)
| CDestroy (h : Handle)                       (* instance.destroy()              *)
| CSetOptions (h : Handle) (options : Obj)    (* instance.setOptions(options)    *)
| CRegisterPlugin (h : Handle)                (* instance.registerPlugin(RecordPlugin.create()) *)
| CStartRecording (p : Handle) (r : Permission) (* plugin.startRecording() and its outcome *)
| CStopRecording (p : Handle)                 (* plugin.stopRecording()          *)
| CToast (t : Toast)                          (* toast({...})                    *)
| CConsoleError (msg : string)                (* console.error(msg, error)       *)
| CSetIsRecording (b : bool)
| CSetCurrentTheme (t : Theme)
| CSetCurrentWaveform (w : WaveformType).

(** ** Component state *)

Inductive Phase := Fresh | Mounted | Unmounted.

Record Component := mkComponent {
  phase : Phase;
  containerRef : option unit;        (* useRef<HTMLDivElement>(null)  *)
  wavesurferRef : option Handle;     (* useRef<WaveSurfer | null>(null) *)
  recordRef : option Handle;         (* useRef<any>(null)             *)
  isRecording : bool;                (* useState(false)               *)
  currentTheme : Theme;              (* useState('classic')           *)
  currentWaveform : WaveformType;    (* useState('bars')              *)
  calls : list Call                  (* most recent call first        *)
}.

Definition initial : Component :=
  mkComponent Fresh None None None false classic bars [].

Definition with_phase (ph : Phase) (s : Component) : Component :=
  mkComponent ph (containerRef s) (wavesurferRef s) (recordRef s)
              (isRecording s) (currentTheme s) (currentWaveform s) (calls s).
Definition with_containerRef (c : option unit) (s : Component) : Component :=
  mkComponent (phase s) c (wavesurferRef s) (recordRef s)
              (isRecording s) (currentTheme s) (currentWaveform s) (calls s).
Definition with_wavesurferRef (r : option Handle) (s : Component) : Component :=
  mkComponent (phase s) (containerRef s) r (recordRef s)
              (isRecording s) (currentTheme s) (currentWaveform s) (calls s).
Definition with_recordRef (r : option Handle) (s : Component) : Component :=
  mkComponent (phase s) (containerRef s) (wavesurferRef s) r
              (isRecording s) (currentTheme s) (currentWaveform s) (calls s).
Definition with_isRecording (b : bool) (s : Component) : Component :=
  mkComponent (phase s) (containerRef s) (wavesurferRef s) (recordRef s)
              b (currentTheme s) (currentWaveform s) (calls s).
Definition with_currentTheme (t : Theme) (s : Component) : Component :=
  mkComponent (phase s) (containerRef s) (wavesurferRef s) (recordRef s)
              (isRecording s) t (currentWaveform s) (calls s).
Definition with_currentWaveform (w : WaveformType) (s : Component) : Component :=
  mkComponent (phase s) (containerRef s) (wavesurferRef s) (recordRef s)
              (isRecording s) (currentTheme s) w (calls s).
Definition emit (c : Call) (s : Component) : Component :=
  mkComponent (phase s) (containerRef s) (wavesurferRef s) (recordRef s)
              (isRecording s) (currentTheme s) (currentWaveform s) (c :: calls s).

(** ** State and exception monad

    A computation runs on the component and either returns or throws; what it
    did to the component before throwing stays done.  [await e] is sequencing,
    a rejected promise is a thrown error, [try/catch] and [.catch] are
    [try_catch], [.then] is bind. *)

Inductive Error := PermissionError | TypeError.

Inductive Res (A : Type) :=
| Ok (a : A)
| Thrown (e : Error).
Arguments Ok {A} a.
Arguments Thrown {A} e.

Definition M (A : Type) : Type := Component → Res A * Component.

#[global] Instance M_ret : MRet M := λ A a s, (Ok a, s).
#[global] Instance M_bind : MBind M := λ A B f m s,
  match m s with
  | (Ok a, s') => f a s'
  | (Thrown e, s') => (Thrown e, s')
  end.

Definition throw {A} (e : Error) : M A := λ s, (Thrown e, s).

Definition try_catch {A} (body : M A) (handler : Error → M A) : M A := λ s,
  match body s with
  | (Ok a, s') => (Ok a, s')
  | (Thrown e, s') => handler e s'
  end.

Definition get : M Component := λ s, (Ok s, s).
Definition modify (f : Component → Component) : M unit := λ s, (Ok tt, f s).
Definition call (c : Call) : M unit := modify (emit c).

(** The component after running [m], whether or not [m] threw. *)
Definition exec {A} (m : M A) (s : Component) : Component := snd (m s).

(** ** Calls as computations *)

(** [WaveSurfer.create(options)]: the new instance gets a handle no earlier
    call has used (the length of the history so far). *)
Definition WaveSurfer_create (options : Obj) : M Handle :=
  s ← get;
  let h := length (calls s) in
  call (CCreate h options);; mret h.

(** [ref.current.method(...)]: a [null] ref makes the member access throw. *)
Definition deref (r : Component → option Handle) : M Handle :=
  s ← get;
  match r s with
  | Some h => mret h
  | None => throw TypeError
  end.

(** [plugin.startRecording()]: the promise is rejected when microphone access
    is not given. *)
Definition plugin_startRecording (p : Handle) (perm : Permission) : M unit :=
  call (CStartRecording p perm);;
  match perm with
  | Granted => mret tt
  | Denied => throw PermissionError
  end.

Definition setIsRecording (b : bool) : M unit :=
  call (CSetIsRecording b);; modify (with_isRecording b).
Definition setCurrentTheme (t : Theme) : M unit :=
  call (CSetCurrentTheme t);; modify (with_currentTheme t).
Definition setCurrentWaveform (w : WaveformType) : M unit :=
  call (CSetCurrentWaveform w);; modify (with_currentWaveform w).

(** ** The component's functions *)

(** The three colour entries and the height that both variants pass to
    [WaveSurfer.create]. *)
Definition baseOptions (t : Theme) : Obj :=
  {[ "container" := VNode;
     "waveColor" := prop (theme_preset t) "waveColor";
     "progressColor" := prop (theme_preset t) "progressColor";
     "cursorColor" := prop (theme_preset t) "cursorColor";
     "height" := VNum 200 ]}.

(** [Rich]: [{ container, waveColor, progressColor, cursorColor, height: 200,
    ...waveformTypes[currentWaveform] }]; the spread entries come last and
    win over earlier ones (the union of maps is left-biased). *)
Definition createOptions (t : Theme) (w : WaveformType) : Obj :=
  waveform_preset w ∪ baseOptions t.

(** [Basic]: [{ container, waveColor, progressColor, cursorColor, height: 200,
    barWidth: 2, barGap: 3, barRadius: 3 }]. *)
Definition basicCreateOptions (t : Theme) : Obj :=
  ({[ "barWidth" := VNum 2; "barGap" := VNum 3; "barRadius" := VNum 3 ]} : Obj)
    ∪ baseOptions t.

(** The argument of [setOptions] in the theme effect. *)
Definition themeOptions (t : Theme) : Obj :=
  {[ "waveColor" := prop (theme_preset t) "waveColor";
     "progressColor" := prop (theme_preset t) "progressColor" ]}.

Definition restart_message : string := "Error restarting recording:".

(** [Rich], lines 61-87.  [perm] is the outcome the browser gives to a
    microphone request, should this run make one. *)
Definition initializeWaveSurfer (perm : Permission) : M unit :=
  s ← get;
  match containerRef s with
  | None => mret tt
  | Some _ =>
      match wavesurferRef s with
      | Some old => call (CDestroy old)
      | None => mret tt
      end;;
      h ← WaveSurfer_create (createOptions (currentTheme s) (currentWaveform s));
      modify (with_wavesurferRef (Some h));;
      call (CRegisterPlugin h);;
      modify (with_recordRef (Some h));;
      if isRecording s then
        try_catch
          (p ← deref recordRef; plugin_startRecording p perm)
          (λ _, call (CConsoleError restart_message);; setIsRecording false)
      else mret tt
  end.

(** [Basic], lines 34-48: the body of the mount effect. *)
Definition basicMountEffect : M unit :=
  s ← get;
  match containerRef s with
  | None => mret tt
  | Some _ =>
      h ← WaveSurfer_create (basicCreateOptions (currentTheme s));
      modify (with_wavesurferRef (Some h));;
      call (CRegisterPlugin h);;
      modify (with_recordRef (Some h))
  end.

(** The cleanup of the first effect, the same in both variants: destroy the
    instance [wavesurferRef.current] if there is one.  The ref keeps pointing
    to the destroyed instance. *)
Definition effectCleanup : M unit :=
  s ← get;
  match wavesurferRef s with
  | Some h => call (CDestroy h)
  | None => mret tt
  end.

(** The second effect, the same in both variants. *)
Definition themeEffect : M unit :=
  s ← get;
  match wavesurferRef s with
  | None => mret tt
  | Some h => call (CSetOptions h (themeOptions (currentTheme s)))
  end.

Definition startRecording (perm : Permission) : M unit :=
  try_catch
    (p ← deref recordRef;
     plugin_startRecording p perm;;
     setIsRecording true;;
     call (CToast toast_started))
    (λ _, call (CToast toast_denied)).

Definition stopRecording : M unit :=
  p ← deref recordRef;
  call (CStopRecording p);;
  setIsRecording false;;
  call (CToast toast_stopped).

(** A promise chain that the caller neither awaits nor returns: what the
    chain does to the component is done, but the caller goes on normally even
    when the chain is rejected (the rejection stays unhandled). *)
Definition detached (m : M unit) : M unit := λ s, (Ok tt, (m s).2).

(** [Rich], lines 133-141.  The function is not [async]: the chain
    [stopRecording().then(...)] is started and left to itself. *)
Definition handleWaveformChange (w : WaveformType) : M unit :=
  s ← get;
  if isRecording s then detached (stopRecording;; setCurrentWaveform w)
  else setCurrentWaveform w.

(** ** React: mounting, events, re-rendering *)

Inductive Variant := Basic | Rich.

Inductive Action :=
| Mount
| Unmount
| ClickRecord                          (* the Start/Stop Recording button *)
| ClickTheme (t : Theme)               (* a theme button                  *)
| ClickWaveform (w : WaveformType).    (* a waveform button ([Rich] only) *)

(** First render: React attaches the container ref (the [div] is always
    rendered), then runs both effects in source order. *)
Definition mount (v : Variant) (perm : Permission) : M unit :=
  modify (with_phase Mounted);;
  modify (with_containerRef (Some tt));;
  match v with
  | Basic => basicMountEffect
  | Rich => initializeWaveSurfer perm
  end;;
  themeEffect.

Definition unmount : M unit :=
  effectCleanup;; modify (with_phase Unmounted).

(** The event handler bound to each control. *)
Definition handler (v : Variant) (perm : Permission) (a : Action) : M unit :=
  match a with
  | ClickRecord =>
      s ← get; if isRecording s then stopRecording else startRecording perm
  | ClickTheme t => setCurrentTheme t
  | ClickWaveform w =>
      match v with
      | Rich => handleWaveformChange w
      | Basic => mret tt
      end
  | Mount | Unmount => mret tt
  end.

(** Re-render after a handler: an effect runs again when one of its
    dependencies differs from the previous render.  The first effect depends
    on [currentWaveform] in [Rich] and on nothing in [Basic]; the second on
    [currentTheme]. *)
Definition rerender (v : Variant) (perm : Permission) (prev : Component) : M unit :=
  s ← get;
  match v with
  | Rich =>
      if decide (currentWaveform s = currentWaveform prev) then mret tt
      else effectCleanup;; initializeWaveSurfer perm
  | Basic => mret tt
  end;;
  if decide (currentTheme s = currentTheme prev) then mret tt
  else themeEffect.

(** One user or lifecycle action.  A rejection nobody catches ends the
    handler but not the component: React still renders what was set.  Every
    handler, [await]s included, is run to its end before the next action: an
    action that arrives while a handler is suspended at an [await] (a click
    while the permission prompt is open) is outside this model. *)
Definition step (v : Variant) (s : Component) (e : Action * Permission) : Component :=
  let '(a, perm) := e in
  match phase s, a with
  | Fresh, Mount => exec (mount v perm) s
  | Mounted, Unmount => exec unmount s
  | Mounted, Mount => s
  | Mounted, _ => exec (rerender v perm s) (exec (handler v perm a) s)
  | _, _ => s
  end.

Definition run (v : Variant) (es : list (Action * Permission)) : Component :=
  foldl (step v) initial es.

(** ** Library: what the calls made so far amount to *)

(** Handles of the instances created and not destroyed. *)
Fixpoint live (tr : list Call) : list Handle :=
  match tr with
  | [] => []
  | CCreate h _ :: older => h :: live older
  | CDestroy h :: older => filter (λ h', h' ≠ h) (live older)
  | _ :: older => live older
  end.

(** Every [WaveSurfer.create] was made when no instance was live. *)
Fixpoint create_after_destroy (tr : list Call) : bool :=
  match tr with
  | [] => true
  | CCreate _ _ :: older =>
      bool_decide (live older = []) && create_after_destroy older
  | _ :: older => create_after_destroy older
  end.

(** The options of instance [h]: those given to [create], with each later
    [setOptions] merged over them. *)
Fixpoint ws_options (tr : list Call) (h : Handle) : Obj :=
  match tr with
  | [] => ∅
  | CCreate h' o :: older => if decide (h' = h) then o else ws_options older h
  | CSetOptions h' o :: older =>
      if decide (h' = h) then o ∪ ws_options older h else ws_options older h
  | _ :: older => ws_options older h
  end.

(** The options [h] was created with. *)
Fixpoint created_with (tr : list Call) (h : Handle) : Obj :=
  match tr with
  | [] => ∅
  | CCreate h' o :: older => if decide (h' = h) then o else created_with older h
  | _ :: older => created_with older h
  end.

(** Whether the plugin on instance [p] is capturing the microphone: a plugin
    starts idle, captures from a granted [startRecording] to the next
    [stopRecording], and ends with its instance. *)
Fixpoint capturing (tr : list Call) (p : Handle) : bool :=
  match tr with
  | [] => false
  | CStartRecording p' Granted :: older =>
      if decide (p' = p) then true else capturing older p
  | CStopRecording p' :: older =>
      if decide (p' = p) then false else capturing older p
  | CDestroy h :: older =>
      if decide (h = p) then false else capturing older p
  | CRegisterPlugin h :: older =>
      if decide (h = p) then false else capturing older p
  | _ :: older => capturing older p
  end.

Definition is_toast (c : Call) : bool :=
  match c with CToast _ => true | _ => false end.

Definition events (l : list Action) (perm : Permission) : list (Action * Permission) :=
  map (λ a, (a, perm)) l.

(** ** Auxiliary definitions used by the statements *)

(** The component once [initializeWaveSurfer] has created the instance and
    registered the plugin, before the restart test. *)
Definition recreated (s : Component) : Component :=
  let s1 := match wavesurferRef s with
            | Some old => emit (CDestroy old) s
            | None => s
            end in
  let h := length (calls s1) in
  with_recordRef (Some h)
    (emit (CRegisterPlugin h)
       (with_wavesurferRef (Some h)
          (emit (CCreate h (createOptions (currentTheme s) (currentWaveform s)))
             s1))).


(** A mounted component whose refs point to instance [h] and its plugin. *)
Definition ready (s : Component) (h : Handle) : Prop :=
  phase s = Mounted ∧ containerRef s = Some tt ∧
  wavesurferRef s = Some h ∧ recordRef s = Some h.

(** The component after the handler of a waveform button. *)
Definition waveform_clicked (w : WaveformType) (s : Component) (h : Handle) : Component :=
  if isRecording s then
    with_currentWaveform w
      (emit (CSetCurrentWaveform w)
         (emit (CToast toast_stopped)
            (with_isRecording false
               (emit (CSetIsRecording false) (emit (CStopRecording h) s)))))
  else with_currentWaveform w (emit (CSetCurrentWaveform w) s).

Definition setOptions_ok (c : Call) : Prop :=
  match c with
  | CSetOptions _ o => ∃ t, o = themeOptions t
  | _ => True
  end.

Fixpoint fresh_handles (tr : list Call) : bool :=
  match tr with
  | [] => true
  | CCreate h _ :: older => bool_decide (h = length older) && fresh_handles older
  | _ :: older => fresh_handles older
  end.

Definition colours_of (tr : list Call) (h : Handle) (t : Theme) : Prop :=
  ws_options tr h !! "waveColor" = Some (prop (theme_preset t) "waveColor") ∧
  ws_options tr h !! "progressColor" = Some (prop (theme_preset t) "progressColor") ∧
  ws_options tr h !! "cursorColor" = Some (prop (theme_preset t) "cursorColor").

Record MountedInv (s : Component) (h : Handle) : Prop := {
  mi_container : containerRef s = Some tt;
  mi_wavesurfer : wavesurferRef s = Some h;
  mi_record : recordRef s = Some h;
  mi_live : live (calls s) = [h];
  mi_capturing : capturing (calls s) h = isRecording s;
  mi_colours : colours_of (calls s) h (currentTheme s)
}.

Definition Inv (s : Component) : Prop :=
  create_after_destroy (calls s) = true ∧
  fresh_handles (calls s) = true ∧
  Forall setOptions_ok (calls s) ∧
  match phase s with
  | Fresh => s = initial
  | Mounted => ∃ h, MountedInv s h
  | Unmounted => live (calls s) = []
  end.

Definition touches_options (c : Call) : bool :=
  match c with
  | CCreate _ _ | CSetOptions _ _ => true
  | _ => false
  end.

(** The calls made between two moments of the same component, newest first. *)
Definition new_calls (before after : Component) : list Call :=
  take (length (calls after) - length (calls before)) (calls after).



(** A reachable component that is recording. *)
Definition recording_component : Component :=
  run Rich [(Mount, Granted); (ClickRecord, Granted)].

(** Calls that create or destroy an instance, or drive the record plugin. *)
Definition touches_instance (c : Call) : bool :=
  match c with
  | CCreate _ _ | CDestroy _ | CRegisterPlugin _
  | CStartRecording _ _ | CStopRecording _ => true
  | _ => false
  end.

(** ** The steps of a run, case by case *)

Inductive transition (v : Variant) : Component → Component → Prop :=
| T_stay s : transition v s s
| T_mount perm : transition v initial (step v initial (Mount, perm))
| T_unmount s h :
    ready s h → transition v s (with_phase Unmounted (emit (CDestroy h) s))
| T_stop s h :
    ready s h → isRecording s = true →
    transition v s
      (emit (CToast toast_stopped)
         (with_isRecording false
            (emit (CSetIsRecording false) (emit (CStopRecording h) s))))
| T_start_granted s h :
    ready s h → isRecording s = false →
    transition v s
      (emit (CToast toast_started)
         (with_isRecording true
            (emit (CSetIsRecording true) (emit (CStartRecording h Granted) s))))
| T_start_denied s h :
    ready s h → isRecording s = false →
    transition v s
      (emit (CToast toast_denied) (emit (CStartRecording h Denied) s))
| T_theme_same s h :
    ready s h →
    transition v s
      (with_currentTheme (currentTheme s)
         (emit (CSetCurrentTheme (currentTheme s)) s))
| T_theme_new s h t :
    ready s h → t ≠ currentTheme s →
    transition v s
      (emit (CSetOptions h (themeOptions t))
         (with_currentTheme t (emit (CSetCurrentTheme t) s)))
| T_waveform_same s h :
    v = Rich → ready s h →
    transition v s (waveform_clicked (currentWaveform s) s h)
| T_waveform_new s h w :
    v = Rich → ready s h → w ≠ currentWaveform s →
    transition v s (recreated (emit (CDestroy h) (waveform_clicked w s h))).

Definition is_console_error (c : Call) : bool :=
  match c with CConsoleError _ => true | _ => false end.

Definition is_start (c : Call) : bool :=
  match c with CStartRecording _ _ => true | _ => false end.

Definition is_create (c : Call) : bool :=
  match c with CCreate _ _ => true | _ => false end.

Definition themed_run : list (Action * Permission) :=
  [(Mount, Granted); (ClickTheme neon, Granted); (ClickWaveform points, Granted)].

(** Every call on an instance or on its plugin, other than [destroy], is made
    while the instance is live. *)
Fixpoint used_while_live (tr : list Call) : bool :=
  match tr with
  | [] => true
  | c :: older =>
      match c with
      | CSetOptions h _ | CStartRecording h _ | CStopRecording h =>
          bool_decide (h ∈ live older)
      | CRegisterPlugin h => bool_decide (h ∈ live older)
      | _ => true
      end && used_while_live older
  end.

(** The option keys a waveform preset can set. *)
Definition waveform_option_keys : list string :=
  ["barWidth"; "barGap"; "barRadius"; "wave"].

(** On these keys the options of instance [h] are those of the object [o]. *)
Definition shape_of (tr : list Call) (h : Handle) (o : Obj) : Prop :=
  Forall (λ k, ws_options tr h !! k = o !! k) waveform_option_keys.

Definition shaped_run : list (Action * Permission) :=
  [(Mount, Granted); (ClickWaveform line, Granted); (ClickTheme sunset, Granted)].

(** ** The rendered controls *)

Record ButtonView := mkButton {
  label : string;       (* the text of the button *)
  look : string;        (* its [variant] prop *)
  onClick : Action
}.

(** [Object.keys] of the two tables, in source order. *)
Definition theme_order : list Theme := [classic; neon; sunset].
Definition waveform_order : list WaveformType := [bars; line; points; rounded].

Definition recordButton (s : Component) : ButtonView :=
  mkButton (if isRecording s then "Stop Recording" else "Start Recording")
           (if isRecording s then "destructive" else "default")
           ClickRecord.

Definition themeButtons (s : Component) : list ButtonView :=
  map (λ t, mkButton (theme_key t)
                     (if bool_decide (currentTheme s = t) then "default"
                      else "outline")
                     (ClickTheme t))
      theme_order.

Definition waveformButtons (s : Component) : list ButtonView :=
  map (λ w, mkButton (waveform_key w)
                     (if bool_decide (currentWaveform s = w) then "default"
                      else "outline")
                     (ClickWaveform w))
      waveform_order.

(** The labels of the buttons shown as selected. *)
Definition highlighted (bs : list ButtonView) : list string :=
  map label (List.filter (λ b, String.eqb (look b) "default") bs).

(** * Facts about the constant tables *)

Lemma theme_preset_lookup (t : Theme) :
  visualizerThemes !! theme_key t = Some (theme_preset t).
Proof. destruct t; reflexivity. Qed.

Lemma waveform_preset_lookup (w : WaveformType) :
  waveformTypes !! waveform_key w = Some (waveform_preset w).
Proof. destruct w; reflexivity. Qed.

Lemma themeOptions_lookup (t : Theme) (k : string) :
  themeOptions t !! k =
    if decide (k = "waveColor") then Some (prop (theme_preset t) "waveColor")
    else if decide (k = "progressColor")
         then Some (prop (theme_preset t) "progressColor")
         else None.
Proof.
  unfold themeOptions. repeat case_decide; subst.
  - by rewrite lookup_insert_eq.
  - rewrite lookup_insert_ne; [|done]. by rewrite lookup_singleton_eq.
  - rewrite lookup_insert_ne; [|done]. by rewrite lookup_singleton_ne.
Qed.

Lemma themeOptions_dom (t : Theme) :
  dom (themeOptions t) = ({[ "waveColor"; "progressColor" ]} : gset string).
Proof. unfold themeOptions. rewrite dom_insert_L, dom_singleton_L. done. Qed.

Lemma cursorColor_constant (t : Theme) :
  prop (theme_preset t) "cursorColor" = VStr "transparent".
Proof. destruct t; reflexivity. Qed.

Lemma createOptions_colours (t : Theme) (w : WaveformType) :
  createOptions t w !! "waveColor" = Some (prop (theme_preset t) "waveColor") ∧
  createOptions t w !! "progressColor" = Some (prop (theme_preset t) "progressColor") ∧
  createOptions t w !! "cursorColor" = Some (prop (theme_preset t) "cursorColor").
Proof. destruct t, w; repeat split; reflexivity. Qed.

Lemma basicCreateOptions_colours (t : Theme) :
  basicCreateOptions t !! "waveColor" = Some (prop (theme_preset t) "waveColor") ∧
  basicCreateOptions t !! "progressColor" = Some (prop (theme_preset t) "progressColor") ∧
  basicCreateOptions t !! "cursorColor" = Some (prop (theme_preset t) "cursorColor").
Proof. destruct t; repeat split; reflexivity. Qed.

#[global] Opaque createOptions basicCreateOptions themeOptions baseOptions
  prop theme_preset waveform_preset.

(** * What each function does, as an equation on the component *)

Ltac run_m :=
  unfold startRecording, stopRecording, themeEffect, effectCleanup,
    basicMountEffect, initializeWaveSurfer, handleWaveformChange,
    setIsRecording, setCurrentTheme, setCurrentWaveform,
    plugin_startRecording, deref, WaveSurfer_create, call, modify, get,
    throw, try_catch, mbind, mret, M_bind, M_ret;
  cbn beta iota.

Lemma startRecording_granted s p :
  recordRef s = Some p →
  startRecording Granted s =
    (Ok tt, emit (CToast toast_started)
              (with_isRecording true
                 (emit (CSetIsRecording true)
                    (emit (CStartRecording p Granted) s)))).
Proof. intros H. run_m. rewrite H. reflexivity. Qed.

Lemma startRecording_denied s p :
  recordRef s = Some p →
  startRecording Denied s =
    (Ok tt, emit (CToast toast_denied) (emit (CStartRecording p Denied) s)).
Proof. intros H. run_m. rewrite H. reflexivity. Qed.

Lemma startRecording_null s perm :
  recordRef s = None →
  startRecording perm s = (Ok tt, emit (CToast toast_denied) s).
Proof. intros H. run_m. rewrite H. reflexivity. Qed.

Lemma stopRecording_run s p :
  recordRef s = Some p →
  stopRecording s =
    (Ok tt, emit (CToast toast_stopped)
              (with_isRecording false
                 (emit (CSetIsRecording false) (emit (CStopRecording p) s)))).
Proof. intros H. run_m. rewrite H. reflexivity. Qed.

Lemma stopRecording_null s :
  recordRef s = None → stopRecording s = (Thrown TypeError, s).
Proof. intros H. run_m. rewrite H. reflexivity. Qed.

Lemma themeEffect_run s h :
  wavesurferRef s = Some h →
  themeEffect s = (Ok tt, emit (CSetOptions h (themeOptions (currentTheme s))) s).
Proof. intros H. run_m. rewrite H. reflexivity. Qed.

Lemma themeEffect_null s :
  wavesurferRef s = None → themeEffect s = (Ok tt, s).
Proof. intros H. run_m. rewrite H. reflexivity. Qed.

Lemma effectCleanup_run s h :
  wavesurferRef s = Some h → effectCleanup s = (Ok tt, emit (CDestroy h) s).
Proof. intros H. run_m. rewrite H. reflexivity. Qed.

Lemma initializeWaveSurfer_no_container s perm :
  containerRef s = None → initializeWaveSurfer perm s = (Ok tt, s).
Proof. intros H. run_m. rewrite H. reflexivity. Qed.

Lemma initializeWaveSurfer_idle s perm :
  containerRef s = Some tt → isRecording s = false →
  initializeWaveSurfer perm s = (Ok tt, recreated s).
Proof.
  intros Hc Hr. run_m. rewrite Hc, Hr. unfold recreated.
  destruct (wavesurferRef s); reflexivity.
Qed.




Lemma handleWaveformChange_idle s w :
  isRecording s = false →
  handleWaveformChange w s =
    (Ok tt, with_currentWaveform w (emit (CSetCurrentWaveform w) s)).
Proof. intros H. run_m. rewrite H. reflexivity. Qed.

Lemma handleWaveformChange_recording s w p :
  isRecording s = true → recordRef s = Some p →
  handleWaveformChange w s =
    (Ok tt, with_currentWaveform w
              (emit (CSetCurrentWaveform w)
                 (emit (CToast toast_stopped)
                    (with_isRecording false
                       (emit (CSetIsRecording false)
                          (emit (CStopRecording p) s)))))).
Proof. destruct s; simpl; intros -> ->; reflexivity. Qed.

(** * React re-rendering *)

Lemma rerender_unchanged v perm prev s :
  currentWaveform s = currentWaveform prev →
  currentTheme s = currentTheme prev →
  rerender v perm prev s = (Ok tt, s).
Proof.
  intros Hw Ht. unfold rerender, get, mbind, mret, M_bind, M_ret.
  destruct v; rewrite ?(decide_True _ _ Hw), (decide_True _ _ Ht); reflexivity.
Qed.

Lemma rerender_theme v perm prev s h :
  currentWaveform s = currentWaveform prev →
  currentTheme s ≠ currentTheme prev →
  wavesurferRef s = Some h →
  rerender v perm prev s =
    (Ok tt, emit (CSetOptions h (themeOptions (currentTheme s))) s).
Proof.
  intros Hw Ht Hh. unfold rerender, get, mbind, mret, M_bind, M_ret.
  destruct v; rewrite ?(decide_True _ _ Hw), (decide_False _ _ Ht);
    apply themeEffect_run, Hh.
Qed.

Lemma rerender_waveform perm prev s h :
  currentWaveform s ≠ currentWaveform prev →
  currentTheme s = currentTheme prev →
  wavesurferRef s = Some h →
  exec (rerender Rich perm prev) s =
    exec (initializeWaveSurfer perm) (emit (CDestroy h) s).
Proof.
  intros Hw Ht Hh. unfold exec, rerender, get, mbind, mret, M_bind, M_ret.
  rewrite (decide_False _ _ Hw), (decide_True _ _ Ht).
  rewrite (effectCleanup_run _ _ Hh).
  destruct (initializeWaveSurfer perm (emit (CDestroy h) s)) as [[[]|e] s']; reflexivity.
Qed.

Lemma rerender_basic_waveform perm prev s :
  currentTheme s = currentTheme prev →
  rerender Basic perm prev s = (Ok tt, s).
Proof.
  intros Ht. unfold rerender, get, mbind, mret, M_bind, M_ret.
  rewrite (decide_True _ _ Ht). reflexivity.
Qed.

(** * One step of a mounted component *)

Ltac open_ready s H :=
  destruct s as [ph c ws rr isr th wf tr];
  unfold ready in H; cbn in H; destruct H as (-> & -> & -> & ->);
  unfold step, exec, handler; cbn [phase].

Lemma step_mount_basic perm :
  step Basic initial (Mount, perm) =
    mkComponent Mounted (Some tt) (Some 0) (Some 0) false classic bars
      [CSetOptions 0 (themeOptions classic); CRegisterPlugin 0;
       CCreate 0 (basicCreateOptions classic)].
Proof. reflexivity. Qed.

Lemma step_mount_rich perm :
  step Rich initial (Mount, perm) =
    mkComponent Mounted (Some tt) (Some 0) (Some 0) false classic bars
      [CSetOptions 0 (themeOptions classic); CRegisterPlugin 0;
       CCreate 0 (createOptions classic bars)].
Proof. reflexivity. Qed.

Lemma step_unmount v s h perm :
  ready s h →
  step v s (Unmount, perm) = with_phase Unmounted (emit (CDestroy h) s).
Proof. intros H. open_ready s H. reflexivity. Qed.

Lemma step_stop v s h perm :
  ready s h → isRecording s = true →
  step v s (ClickRecord, perm) =
    emit (CToast toast_stopped)
      (with_isRecording false
         (emit (CSetIsRecording false) (emit (CStopRecording h) s))).
Proof.
  intros H Hr. open_ready s H. cbn in Hr. subst isr.
  unfold get, mbind, M_bind. cbn [isRecording].
  erewrite stopRecording_run by reflexivity. cbn [snd].
  rewrite rerender_unchanged by reflexivity. reflexivity.
Qed.

Lemma step_start_granted v s h :
  ready s h → isRecording s = false →
  step v s (ClickRecord, Granted) =
    emit (CToast toast_started)
      (with_isRecording true
         (emit (CSetIsRecording true) (emit (CStartRecording h Granted) s))).
Proof.
  intros H Hr. open_ready s H. cbn in Hr. subst isr.
  unfold get, mbind, M_bind. cbn [isRecording].
  erewrite startRecording_granted by reflexivity. cbn [snd].
  rewrite rerender_unchanged by reflexivity. reflexivity.
Qed.

Lemma step_start_denied v s h :
  ready s h → isRecording s = false →
  step v s (ClickRecord, Denied) =
    emit (CToast toast_denied) (emit (CStartRecording h Denied) s).
Proof.
  intros H Hr. open_ready s H. cbn in Hr. subst isr.
  unfold get, mbind, M_bind. cbn [isRecording].
  erewrite startRecording_denied by reflexivity. cbn [snd].
  rewrite rerender_unchanged by reflexivity. reflexivity.
Qed.

Lemma step_theme_same v s h perm :
  ready s h →
  step v s (ClickTheme (currentTheme s), perm) =
    with_currentTheme (currentTheme s)
      (emit (CSetCurrentTheme (currentTheme s)) s).
Proof.
  intros H. open_ready s H. cbn [currentTheme].
  unfold setCurrentTheme, call, modify, mbind, M_bind. cbn [snd].
  rewrite rerender_unchanged by reflexivity. reflexivity.
Qed.

Lemma step_theme_new v s h t perm :
  ready s h → t ≠ currentTheme s →
  step v s (ClickTheme t, perm) =
    emit (CSetOptions h (themeOptions t))
      (with_currentTheme t (emit (CSetCurrentTheme t) s)).
Proof.
  intros H Ht. open_ready s H. cbn in Ht.
  unfold setCurrentTheme, call, modify, mbind, M_bind. cbn [snd].
  erewrite rerender_theme; [reflexivity | reflexivity | exact Ht | reflexivity].
Qed.

Lemma step_waveform_basic s h w perm :
  ready s h → step Basic s (ClickWaveform w, perm) = s.
Proof.
  intros H. open_ready s H. unfold mret, M_ret. cbn [snd].
  rewrite rerender_unchanged by reflexivity. reflexivity.
Qed.

Lemma step_waveform_same s h perm :
  ready s h →
  step Rich s (ClickWaveform (currentWaveform s), perm) =
    waveform_clicked (currentWaveform s) s h.
Proof.
  intros H. open_ready s H. cbn [currentWaveform]. unfold waveform_clicked.
  destruct isr.
  - erewrite handleWaveformChange_recording by reflexivity. cbn [snd isRecording].
    rewrite rerender_unchanged by reflexivity. reflexivity.
  - erewrite handleWaveformChange_idle by reflexivity. cbn [snd isRecording].
    rewrite rerender_unchanged by reflexivity. reflexivity.
Qed.

Lemma step_waveform_new s h w perm :
  ready s h → w ≠ currentWaveform s →
  step Rich s (ClickWaveform w, perm) =
    recreated (emit (CDestroy h) (waveform_clicked w s h)).
Proof.
  intros H Hw. open_ready s H. cbn in Hw. unfold waveform_clicked.
  pose proof (rerender_waveform perm) as E. unfold exec in E.
  destruct isr.
  - erewrite handleWaveformChange_recording by reflexivity. cbn [snd isRecording].
    erewrite E; [| exact Hw | reflexivity | reflexivity].
    rewrite initializeWaveSurfer_idle by reflexivity. reflexivity.
  - erewrite handleWaveformChange_idle by reflexivity. cbn [snd isRecording].
    erewrite E; [| exact Hw | reflexivity | reflexivity].
    rewrite initializeWaveSurfer_idle by reflexivity. reflexivity.
Qed.

(** * Invariant of every run *)

Lemma filter_ne_self (h : Handle) : filter (λ h', h' ≠ h) [h] = [].
Proof. rewrite filter_cons. by case_decide. Qed.

Lemma colours_setOptions tr h t t' :
  colours_of tr h t' → colours_of (CSetOptions h (themeOptions t) :: tr) h t.
Proof.
  intros (Hw & Hp & Hc). unfold colours_of. simpl. rewrite decide_True by done.
  repeat split.
  - apply lookup_union_Some_l. by rewrite themeOptions_lookup.
  - apply lookup_union_Some_l. by rewrite themeOptions_lookup.
  - rewrite lookup_union_r by (by rewrite themeOptions_lookup).
    by rewrite Hc, !cursorColor_constant.
Qed.

Lemma Inv_initial : Inv initial.
Proof. repeat split; try done. Qed.



Lemma colours_created_rich tr h t w :
  colours_of (CRegisterPlugin h :: CCreate h (createOptions t w) :: tr) h t.
Proof.
  unfold colours_of. simpl. rewrite decide_True by reflexivity.
  apply createOptions_colours.
Qed.

Lemma colours_created_basic tr h t :
  colours_of (CRegisterPlugin h :: CCreate h (basicCreateOptions t) :: tr) h t.
Proof.
  unfold colours_of. simpl. rewrite decide_True by reflexivity.
  apply basicCreateOptions_colours.
Qed.

Lemma colours_other c tr h t :
  touches_options c = false → colours_of tr h t → colours_of (c :: tr) h t.
Proof. destruct c; intros Hc Hcol; try discriminate Hc; exact Hcol. Qed.

Ltac solve_colours :=
  lazymatch goal with
  | |- colours_of (CSetOptions _ (themeOptions _) :: _) _ _ =>
      eapply colours_setOptions; solve_colours
  | |- colours_of (CRegisterPlugin _ :: CCreate _ (createOptions _ _) :: _) _ _ =>
      apply colours_created_rich
  | |- colours_of (CRegisterPlugin _ :: CCreate _ (basicCreateOptions _) :: _) _ _ =>
      apply colours_created_basic
  | |- colours_of (_ :: _) _ _ =>
      apply colours_other; [ reflexivity | solve_colours ]
  | |- _ => eassumption
  end.


Ltac solve_field :=
  cbn; rewrite ?decide_True by reflexivity;
  try match goal with H : isRecording _ = _ |- _ => rewrite !H end;
  try match goal with
      | H : live _ = [_] |- _ => rewrite !H, !filter_ne_self; cbn
      end;
  first [ reflexivity | eassumption ].

Ltac solve_mounted :=
  eexists; split;
  [ solve_field | solve_field | solve_field | solve_field | solve_field
  | cbn; solve_colours ].

Ltac solve_bool :=
  cbn;
  try match goal with
      | H : live _ = [_] |- _ => rewrite !H, !filter_ne_self; cbn
      end;
  rewrite ?bool_decide_eq_true_2 by reflexivity; cbn;
  first [ reflexivity | eassumption ].

Ltac solve_forall :=
  cbn;
  repeat (apply Forall_cons_2; [ first [ exact I | by eexists ] |]);
  first [ assumption | apply Forall_nil_2 ].

Ltac solve_inv tac :=
  refine (conj _ (conj _ (conj _ _)));
  [ solve_bool | solve_bool | solve_forall
  | cbn;
    try match goal with H : phase _ = _ |- _ => rewrite !H end;
    tac ].

Lemma MountedInv_ready s h : MountedInv s h → phase s = Mounted → ready s h.
Proof. intros [] ?. by repeat split. Qed.

Lemma Inv_step v s e : Inv s → Inv (step v s e).
Proof.
  destruct e as [a perm]. intros (Hc & Hf & Hs & Hph).
  destruct (phase s) eqn:Hphase.
  - (* Fresh *)
    subst s. destruct a; try (solve_inv ltac:(reflexivity)).
    destruct v; [rewrite step_mount_basic | rewrite step_mount_rich];
      solve_inv ltac:(solve_mounted).
  - (* Mounted *)
    destruct Hph as [h HM]. pose proof (MountedInv_ready _ _ HM Hphase) as Hr.
    destruct HM as [Hcont Hws Hrr Hl Hcap Hcol].
    destruct a.
    + (* Mount *)
      replace (step v s (Mount, perm)) with s
        by (unfold step; rewrite Hphase; reflexivity).
      refine (conj Hc (conj Hf (conj Hs _))). rewrite Hphase. exists h. by split.
    + (* Unmount *)
      rewrite (step_unmount v s h perm Hr). solve_inv ltac:(solve_bool).
    + (* ClickRecord *)
      destruct (isRecording s) eqn:Hrec.
      * rewrite (step_stop v s h perm Hr Hrec). solve_inv ltac:(solve_mounted).
      * destruct perm.
        -- rewrite (step_start_granted v s h Hr Hrec). solve_inv ltac:(solve_mounted).
        -- rewrite (step_start_denied v s h Hr Hrec). solve_inv ltac:(solve_mounted).
    + (* ClickTheme *)
      destruct (decide (t = currentTheme s)) as [->|Hne].
      * rewrite (step_theme_same v s h perm Hr). solve_inv ltac:(solve_mounted).
      * rewrite (step_theme_new v s h t perm Hr Hne). solve_inv ltac:(solve_mounted).
    + (* ClickWaveform *)
      destruct v.
      { rewrite (step_waveform_basic s h w perm Hr).
        refine (conj Hc (conj Hf (conj Hs _))). rewrite Hphase. exists h. by split. }
      destruct (decide (w = currentWaveform s)) as [->|Hne].
      * rewrite (step_waveform_same s h perm Hr). unfold waveform_clicked.
        destruct (isRecording s) eqn:Hrec;
          solve_inv ltac:(solve_mounted).
      * rewrite (step_waveform_new s h w perm Hr Hne).
        unfold waveform_clicked, recreated.
        destruct (isRecording s) eqn:Hrec; cbn; rewrite ?Hws;
          solve_inv ltac:(solve_mounted).
  - (* Unmounted *)
    replace (step v s (a, perm)) with s
      by (unfold step; rewrite Hphase; by destruct a).
    refine (conj Hc (conj Hf (conj Hs _))). by rewrite Hphase.
Qed.

(** * The claims *)

Lemma Inv_run v es : Inv (run v es).
Proof.
  unfold run. generalize Inv_initial. generalize initial.
  induction es as [|e es IH]; intros s Hs; cbn; [exact Hs|].
  apply IH, Inv_step, Hs.
Qed.

Lemma run_snoc v es e : run v (es ++ [e]) = step v (run v es) e.
Proof. unfold run. by rewrite foldl_app. Qed.

Lemma run_mounted v es :
  phase (run v es) = Mounted → ∃ h, MountedInv (run v es) h.
Proof. intros H. destruct (Inv_run v es) as (_ & _ & _ & Hp). by rewrite H in Hp. Qed.

Example recording_component_state :
  isRecording recording_component = true ∧
  wavesurferRef recording_component = Some 0 ∧
  recordRef recording_component = Some 0 ∧
  containerRef recording_component = Some tt.
Proof. repeat split; reflexivity. Qed.

(** C1 (the code does otherwise): the claim says that a waveform-style change
    requested while recording recreates the instance and resumes recording.
    On the run mount, start recording (granted), click the [line] style, the
    instance is indeed replaced (handle 0 by handle 12), but the recording
    state ends [false], the new plugin is not capturing and
    [startRecording] was never called on it: [stopRecording] has set
    [isRecording] to [false] before [initializeWaveSurfer] tests it. *)
Theorem waveform_change_leaves_recording_stopped :
  let s := run Rich [(Mount, Granted); (ClickRecord, Granted);
                     (ClickWaveform line, Granted)] in
  isRecording recording_component = true ∧
  capturing (calls recording_component) 0 = true ∧
  live (calls s) = [12] ∧
  wavesurferRef s = Some 12 ∧
  recordRef s = Some 12 ∧
  isRecording s = false ∧
  capturing (calls s) 12 = false ∧
  existsb (λ c, match c with CStartRecording 12 _ => true | _ => false end)
          (calls s) = false.
Proof. cbv zeta. repeat split; reflexivity. Qed.

(** C3: when [startRecording] runs and the library's [startRecording] call
    fails, the function still returns normally, the call is followed by the
    destructive "Permission denied" toast and by nothing else, and the
    recording state and every other piece of component state are unchanged
    (so the state stays [false] when it was [false]).  The function is the
    same in both variants. *)
Theorem startRecording_denied_keeps_state (s : Component) (p : Handle) :
  recordRef s = Some p →
  let r := startRecording Denied s in
  r.1 = Ok tt ∧
  calls r.2 = CToast toast_denied :: CStartRecording p Denied :: calls s ∧
  variant toast_denied = Some "destructive" ∧
  isRecording r.2 = isRecording s ∧
  (isRecording s = false → isRecording r.2 = false) ∧
  currentTheme r.2 = currentTheme s ∧
  currentWaveform r.2 = currentWaveform s ∧
  wavesurferRef r.2 = wavesurferRef s ∧
  recordRef r.2 = recordRef s.
Proof.
  intros Hp. cbv zeta. rewrite (startRecording_denied s p Hp). cbn.
  repeat split; try reflexivity. intros H; exact H.
Qed.

Lemma startRecording_denied_keeps_state_witness :
  recordRef recording_component = Some 0 ∧
  isRecording (startRecording Denied recording_component).2 = true.
Proof.
  split; [reflexivity|].
  pose proof (startRecording_denied_keeps_state recording_component 0 eq_refl) as H.
  cbv zeta in H. destruct H as (_ & _ & _ & H & _). rewrite H. reflexivity.
Defined.

(** C5: when [startRecording] runs and microphone access is granted, the
    recording state becomes [true], the plugin is capturing, and the
    "Recording started" toast is shown after the state is set.  The function
    is the same in both variants. *)
Theorem startRecording_granted_sets_recording (s : Component) (p : Handle) :
  recordRef s = Some p →
  let r := startRecording Granted s in
  r.1 = Ok tt ∧
  isRecording r.2 = true ∧
  calls r.2 =
    CToast toast_started :: CSetIsRecording true ::
    CStartRecording p Granted :: calls s ∧
  capturing (calls r.2) p = true ∧
  variant toast_started = None.
Proof.
  intros Hp. cbv zeta. rewrite (startRecording_granted s p Hp). cbn.
  rewrite decide_True by reflexivity. repeat split; reflexivity.
Qed.

Lemma startRecording_granted_sets_recording_witness :
  recordRef (run Basic [(Mount, Granted)]) = Some 0 ∧
  isRecording (startRecording Granted (run Basic [(Mount, Granted)])).2 = true.
Proof.
  split; [reflexivity|].
  exact (proj1 (proj2
    (startRecording_granted_sets_recording (run Basic [(Mount, Granted)]) 0 eq_refl))).
Defined.

(** C6: [stopRecording] on a component whose plugin ref is set calls the
    plugin's [stopRecording] (capture stops) and returns normally with the
    recording state [false], whatever the recording state was before.  The
    function is the same in both variants. *)
Theorem stopRecording_resolves_false (s : Component) (p : Handle) :
  recordRef s = Some p →
  let r := stopRecording s in
  r.1 = Ok tt ∧
  isRecording r.2 = false ∧
  capturing (calls r.2) p = false ∧
  In (CStopRecording p) (new_calls s r.2).
Proof.
  intros Hp. cbv zeta. rewrite (stopRecording_run s p Hp). unfold new_calls. cbn.
  rewrite decide_True by reflexivity.
  replace (S (S (S (length (calls s)))) - length (calls s)) with 3 by lia.
  cbn. repeat split; try reflexivity. right; right; left; reflexivity.
Qed.

Lemma stopRecording_resolves_false_witness :
  recordRef recording_component = Some 0 ∧
  isRecording recording_component = true ∧
  isRecording (stopRecording recording_component).2 = false ∧
  isRecording (stopRecording (stopRecording recording_component).2).2 = false.
Proof.
  split; [reflexivity|]. split; [reflexivity|]. split.
  - exact (proj1 (proj2 (stopRecording_resolves_false recording_component 0 eq_refl))).
  - exact (proj1 (proj2
      (stopRecording_resolves_false (stopRecording recording_component).2 0 eq_refl))).
Defined.

Lemma new_calls_app (s s' : Component) (pre : list Call) :
  calls s' = (pre ++ calls s)%list → new_calls s s' = pre.
Proof.
  intros H. unfold new_calls. rewrite H, length_app.
  replace (length pre + length (calls s) - length (calls s)) with (length pre) by lia.
  apply take_app_length.
Qed.

(** C7: in every run of either variant, every [WaveSurfer.create] is made
    when no instance is live and with a fresh handle, at most one instance is
    live at any time, a mounted component's live instance is the one
    [wavesurferRef] points to, unmounting destroys it, and an unmounted
    component has no live instance. *)
Theorem at_most_one_live_instance (v : Variant) (es : list (Action * Permission)) :
  let s := run v es in
  create_after_destroy (calls s) = true ∧
  fresh_handles (calls s) = true ∧
  (length (live (calls s)) ≤ 1)%nat ∧
  match phase s with
  | Fresh => calls s = []
  | Mounted =>
      (∃ h, wavesurferRef s = Some h ∧ live (calls s) = [h]) ∧
      ∀ perm, phase (step v s (Unmount, perm)) = Unmounted ∧
              live (calls (step v s (Unmount, perm))) = []
  | Unmounted => live (calls s) = []
  end.
Proof.
  cbv zeta. destruct (Inv_run v es) as (Hc & Hf & _ & Hp).
  split; [exact Hc|]. split; [exact Hf|].
  destruct (phase (run v es)) eqn:Hphase.
  - rewrite Hp. cbn. split; [lia | reflexivity].
  - destruct Hp as [h HM]. pose proof (MountedInv_ready _ _ HM Hphase) as Hr.
    destruct HM as [_ Hws _ Hl _ _]. rewrite Hl. split; [cbn; lia|]. split.
    + exists h. split; [exact Hws | reflexivity].
    + intros perm. rewrite (step_unmount v _ h perm Hr). cbn.
      rewrite Hl, filter_ne_self. split; reflexivity.
  - rewrite Hp. cbn. split; [lia | reflexivity].
Qed.

Lemma cursorColor_kept tr h :
  Forall setOptions_ok tr →
  ws_options tr h !! "cursorColor" = created_with tr h !! "cursorColor".
Proof.
  induction 1 as [|c tr Hc _ IH]; [reflexivity|].
  destruct c; cbn; try exact IH.
  - case_decide; [reflexivity | exact IH].
  - case_decide; [|exact IH]. destruct Hc as [t ->].
    rewrite lookup_union_r; [exact IH|].
    rewrite themeOptions_lookup. reflexivity.
Qed.

(** C9: in every run of either variant, every [setOptions] call passes
    exactly the keys [waveColor] and [progressColor], never [cursorColor], and
    the [cursorColor] option of every instance is the one it was created
    with. *)
Theorem theme_change_never_sets_cursorColor
    (v : Variant) (es : list (Action * Permission)) :
  let s := run v es in
  Forall (λ c, match c with
               | CSetOptions _ o =>
                   dom o = ({[ "waveColor"; "progressColor" ]} : gset string) ∧
                   o !! "cursorColor" = None
               | _ => True
               end) (calls s) ∧
  ∀ h, ws_options (calls s) h !! "cursorColor" =
       created_with (calls s) h !! "cursorColor".
Proof.
  cbv zeta. destruct (Inv_run v es) as (_ & _ & Hs & _). split.
  - eapply Forall_impl; [exact Hs|]. intros [] Hc; try exact I.
    destruct Hc as [t ->]. split; [apply themeOptions_dom|].
    rewrite themeOptions_lookup. reflexivity.
  - intros h. apply cursorColor_kept, Hs.
Qed.

(** C4: selecting a theme on a mounted component of either variant keeps the
    same visualizer instance (no create, destroy, plugin registration, start
    or stop call is made, the refs are unchanged and the instance stays
    live), leaves the recording state and the plugin's capture as they were,
    and leaves the instance with the colour options of the selected theme. *)
Theorem theme_change_keeps_instance
    (v : Variant) (es : list (Action * Permission)) (t : Theme) (perm : Permission) :
  let s := run v es in
  let s' := step v s (ClickTheme t, perm) in
  phase s = Mounted →
  ∃ h,
    wavesurferRef s = Some h ∧ wavesurferRef s' = Some h ∧
    recordRef s' = recordRef s ∧
    isRecording s' = isRecording s ∧
    live (calls s) = [h] ∧ live (calls s') = [h] ∧
    capturing (calls s') h = capturing (calls s) h ∧
    existsb touches_instance (new_calls s s') = false ∧
    currentTheme s' = t ∧
    colours_of (calls s') h t.
Proof.
  cbv zeta. intros Hphase.
  destruct (run_mounted v es Hphase) as [h HM].
  pose proof (MountedInv_ready _ _ HM Hphase) as Hr.
  destruct HM as [_ Hws _ Hl _ Hcol]. exists h.
  destruct (decide (t = currentTheme (run v es))) as [->|Hne].
  - rewrite (step_theme_same v _ h perm Hr).
    rewrite (new_calls_app _ _ [CSetCurrentTheme (currentTheme (run v es))])
      by reflexivity.
    cbn. repeat match goal with |- _ ∧ _ => split end;
      first [ reflexivity | assumption ].
  - rewrite (step_theme_new v _ h t perm Hr Hne).
    rewrite (new_calls_app _ _
      [CSetOptions h (themeOptions t); CSetCurrentTheme t]) by reflexivity.
    cbn. repeat match goal with |- _ ∧ _ => split end;
      first [ reflexivity | assumption
            | eapply colours_setOptions, colours_other;
              [reflexivity | exact Hcol] ].
Qed.

Lemma theme_change_keeps_instance_witness :
  phase recording_component = Mounted ∧
  isRecording (step Rich recording_component (ClickTheme neon, Granted)) = true ∧
  wavesurferRef (step Rich recording_component (ClickTheme neon, Granted)) = Some 0.
Proof.
  split; [reflexivity|].
  destruct (theme_change_keeps_instance Rich
              [(Mount, Granted); (ClickRecord, Granted)] neon Granted eq_refl)
    as (h & H0 & H1 & _ & H3 & _).
  change (Some 0 = Some h) in H0. injection H0 as <-.
  split; [exact H3 | exact H1].
Defined.

(** C10: whenever [stopRecording] is invoked in a run, by the record button
    or by a waveform-style button while recording, it sets the recording state
    to [false] and then shows the "Recording stopped" toast (calls are listed
    newest first). *)
Theorem stopRecording_always_toasts
    (v : Variant) (es : list (Action * Permission)) (perm : Permission) :
  let s := run v es in
  phase s = Mounted → isRecording s = true →
  ∃ p,
    recordRef s = Some p ∧
    stopRecording s =
      (Ok tt, emit (CToast toast_stopped)
                (with_isRecording false
                   (emit (CSetIsRecording false) (emit (CStopRecording p) s)))) ∧
    calls (step v s (ClickRecord, perm)) =
      CToast toast_stopped :: CSetIsRecording false :: CStopRecording p :: calls s ∧
    ∀ w, ∃ later,
      calls (step Rich s (ClickWaveform w, perm)) =
        (later ++ CToast toast_stopped :: CSetIsRecording false ::
           CStopRecording p :: calls s)%list.
Proof.
  cbv zeta. intros Hphase Hrec.
  destruct (run_mounted v es Hphase) as [h HM].
  pose proof (MountedInv_ready _ _ HM Hphase) as Hr.
  destruct HM as [_ Hws Hrr _ _ _]. exists h.
  split; [exact Hrr|]. split; [exact (stopRecording_run _ h Hrr)|]. split.
  - rewrite (step_stop v _ h perm Hr Hrec). reflexivity.
  - intros w. destruct (decide (w = currentWaveform (run v es))) as [->|Hne].
    + rewrite (step_waveform_same _ h perm Hr). unfold waveform_clicked.
      rewrite Hrec. eexists [_]. reflexivity.
    + rewrite (step_waveform_new _ h w perm Hr Hne).
      unfold waveform_clicked, recreated. rewrite Hrec. cbn. rewrite Hws. cbn.
      eexists [_; _; _; _; _]. reflexivity.
Qed.

Lemma stopRecording_always_toasts_witness :
  phase recording_component = Mounted ∧
  isRecording recording_component = true ∧
  calls (step Rich recording_component (ClickRecord, Granted)) =
    CToast toast_stopped :: CSetIsRecording false :: CStopRecording 0 ::
    calls recording_component.
Proof.
  split; [reflexivity|]. split; [reflexivity|].
  destruct (stopRecording_always_toasts Rich
              [(Mount, Granted); (ClickRecord, Granted)] Granted eq_refl eq_refl)
    as (p & Hp & _ & H & _).
  injection Hp as <-. exact H.
Defined.






(** C8 as stated (every waveform style gives bar width, bar gap, bar radius
    and rendering mode) is false: the [line] preset has no [barGap]. *)
Lemma line_preset_has_no_gap_or_radius :
  ¬ (∀ w, dom (waveform_preset w) =
          ({[ "barWidth"; "barGap"; "barRadius"; "wave" ]} : gset string)).
Proof.
  intros H. specialize (H line).
  assert (Hin : "barGap" ∈ dom (waveform_preset line)) by (rewrite H; set_solver).
  apply elem_of_dom in Hin. destruct Hin as [x Hx].
  change (waveform_preset line !! "barGap") with (@None Value) in Hx.
  discriminate Hx.
Qed.

(** C8, amended: the themes are exactly classic, neon and sunset, each giving
    [waveColor], [progressColor] and [cursorColor]; the waveform styles are
    exactly bars, line, points and rounded; bars, points and rounded give
    [barWidth], [barGap], [barRadius] and [wave], while line gives only
    [barWidth] and [wave]. *)
Theorem presets_enumerated :
  dom visualizerThemes = ({[ "classic"; "neon"; "sunset" ]} : gset string) ∧
  (∀ t, visualizerThemes !! theme_key t = Some (theme_preset t) ∧
        dom (theme_preset t) =
          ({[ "waveColor"; "progressColor"; "cursorColor" ]} : gset string)) ∧
  dom waveformTypes = ({[ "bars"; "line"; "points"; "rounded" ]} : gset string) ∧
  (∀ w, waveformTypes !! waveform_key w = Some (waveform_preset w) ∧
        dom (waveform_preset w) =
          if decide (w = line)
          then ({[ "barWidth"; "wave" ]} : gset string)
          else ({[ "barWidth"; "barGap"; "barRadius"; "wave" ]} : gset string)).
Proof.
  split; [reflexivity|]. split; [intros []; split; reflexivity|].
  split; [reflexivity|]. intros []; split; reflexivity.
Qed.

(** * Further properties of the component *)

Lemma step_transition v s e : Inv s → transition v s (step v s e).
Proof.
  destruct e as [a perm]. intros (_ & _ & _ & Hp).
  destruct (phase s) eqn:Hphase.
  - subst s. destruct a; try apply T_stay. apply T_mount.
  - destruct Hp as [h HM]. pose proof (MountedInv_ready _ _ HM Hphase) as Hr.
    destruct a.
    + replace (step v s (Mount, perm)) with s
        by (unfold step; rewrite Hphase; reflexivity).
      apply T_stay.
    + rewrite (step_unmount v s h perm Hr). by apply T_unmount.
    + destruct (isRecording s) eqn:Hrec.
      * rewrite (step_stop v s h perm Hr Hrec). by apply T_stop.
      * destruct perm.
        -- rewrite (step_start_granted v s h Hr Hrec). by apply T_start_granted.
        -- rewrite (step_start_denied v s h Hr Hrec). by apply T_start_denied.
    + destruct (decide (t = currentTheme s)) as [->|Hne].
      * rewrite (step_theme_same v s h perm Hr). by eapply T_theme_same.
      * rewrite (step_theme_new v s h t perm Hr Hne). by apply T_theme_new.
    + destruct v.
      { rewrite (step_waveform_basic s h w perm Hr). apply T_stay. }
      destruct (decide (w = currentWaveform s)) as [->|Hne].
      * rewrite (step_waveform_same s h perm Hr). by apply T_waveform_same.
      * rewrite (step_waveform_new s h w perm Hr Hne). by apply T_waveform_new.
  - replace (step v s (a, perm)) with s
      by (unfold step; rewrite Hphase; by destruct a).
    apply T_stay.
Qed.

(** Induction over the steps of a run. *)
Lemma run_ind (v : Variant) (I : Component → Prop) :
  I initial →
  (∀ s s', Inv s → I s → transition v s s' → I s') →
  ∀ es, I (run v es).
Proof.
  intros H0 Hstep es. induction es as [|e es IH] using rev_ind; [exact H0|].
  rewrite run_snoc. eapply Hstep; [apply Inv_run | exact IH |].
  apply step_transition, Inv_run.
Qed.

(** Breaks a transition into its cases, with the resulting component written
    out as far as the recording state allows. *)
Ltac transition_cases H :=
  destruct H as
    [ s | perm | s h Hr | s h Hr Hrec | s h Hr Hrec | s h Hr Hrec
    | s h Hr | s h t Hr Hne | s h Hv Hr | s h w Hv Hr Hne ];
  try match goal with
      | |- context [step ?v initial (Mount, _)] =>
          first [ is_var v; destruct v;
                  [rewrite step_mount_basic | rewrite step_mount_rich]
                | rewrite step_mount_basic
                | rewrite step_mount_rich ]
      end;
  try match goal with
      | Hr : ready _ _ |- _ => pose proof Hr as (Hphase & Hcont & Hws & Hrr)
      end;
  unfold waveform_clicked, recreated;
  try match goal with
      | |- context [if isRecording ?s then _ else _] =>
          destruct (isRecording s) eqn:Hrec
      end;
  cbn;
  try match goal with
      | Hws : wavesurferRef _ = Some _ |- _ => rewrite ?Hws; cbn
      end.

Lemma no_console_error v es :
  existsb is_console_error (calls (run v es)) = false.
Proof.
  apply (run_ind v (λ s, existsb is_console_error (calls s) = false));
    [reflexivity|].
  intros s s' _ IH Htr. transition_cases Htr; exact IH.
Qed.

Lemma new_calls_same s : new_calls s s = [].
Proof. unfold new_calls. by rewrite Nat.sub_diag. Qed.

Lemma step_not_mounted v s a perm :
  phase s ≠ Mounted → a ≠ Mount → step v s (a, perm) = s.
Proof.
  intros Hp Ha. unfold step. destruct (phase s); [|done|]; by destruct a.
Qed.

(** X1: in every run of either variant [console.error] is never called, and
    a click on a waveform button never asks for the microphone: it makes no
    [startRecording] call, its outcome does not depend on the permission, and
    in [Rich] it leaves the recording state [false].  So the restart in
    [initializeWaveSurfer] and its catch are never executed. *)
Theorem restart_never_runs
    (v : Variant) (es : list (Action * Permission))
    (w : WaveformType) (perm : Permission) :
  let s := run v es in
  let s' := step v s (ClickWaveform w, perm) in
  existsb is_console_error (calls s) = false ∧
  existsb is_start (new_calls s s') = false ∧
  step v s (ClickWaveform w, Granted) = step v s (ClickWaveform w, Denied) ∧
  match v, phase s with
  | Rich, Mounted => isRecording s' = false
  | _, _ => s' = s
  end.
Proof.
  cbv zeta. split; [apply no_console_error|].
  destruct (phase (run v es)) eqn:Hphase.
  - rewrite !step_not_mounted by (rewrite ?Hphase; done).
    rewrite new_calls_same. by destruct v.
  - destruct (run_mounted v es Hphase) as [h HM].
    pose proof (MountedInv_ready _ _ HM Hphase) as Hr.
    destruct HM as [_ Hws _ _ _ _]. destruct v.
    { rewrite !(step_waveform_basic _ h) by exact Hr.
      rewrite new_calls_same. done. }
    destruct (decide (w = currentWaveform (run Rich es))) as [->|Hne].
    + rewrite !(step_waveform_same _ h) by exact Hr. unfold waveform_clicked.
      destruct (isRecording (run Rich es)) eqn:Hrec.
      * erewrite new_calls_app by (by instantiate (1 := [_; _; _; _])). done.
      * erewrite new_calls_app by (by instantiate (1 := [_])). done.
    + rewrite !(step_waveform_new _ h w) by assumption.
      unfold waveform_clicked, recreated.
      destruct (isRecording (run Rich es)) eqn:Hrec;
        cbn -[new_calls]; rewrite Hws; cbn -[new_calls].
      * erewrite new_calls_app by (by instantiate (1 := [_; _; _; _; _; _; _; _])).
        done.
      * erewrite new_calls_app by (by instantiate (1 := [_; _; _; _; _])). done.
  - rewrite !step_not_mounted by (rewrite ?Hphase; done).
    rewrite new_calls_same. by destruct v.
Qed.

(** X3: in every run, the live instance of a mounted component has the wave,
    progress and cursor colours of the currently selected theme, also after
    the instance was recreated by a waveform-style change. *)
Theorem instance_colours_follow_theme
    (v : Variant) (es : list (Action * Permission)) :
  let s := run v es in
  phase s = Mounted →
  ∃ h, wavesurferRef s = Some h ∧
       prop (ws_options (calls s) h) "waveColor" =
         prop (theme_preset (currentTheme s)) "waveColor" ∧
       prop (ws_options (calls s) h) "progressColor" =
         prop (theme_preset (currentTheme s)) "progressColor" ∧
       prop (ws_options (calls s) h) "cursorColor" =
         prop (theme_preset (currentTheme s)) "cursorColor".
Proof.
  cbv zeta. intros Hphase.
  destruct (run_mounted v es Hphase) as [h [_ Hws _ _ _ (Hw & Hp & Hc)]].
  exists h. split; [exact Hws|].
  unfold prop at 1 3 5. (* the options side *)
  rewrite Hw, Hp, Hc. by repeat split.
Qed.

Lemma instance_colours_follow_theme_witness :
  phase (run Rich themed_run) = Mounted ∧
  ∃ h, wavesurferRef (run Rich themed_run) = Some h ∧
       prop (ws_options (calls (run Rich themed_run)) h) "waveColor" =
         prop (theme_preset (currentTheme (run Rich themed_run))) "waveColor" ∧
       prop (ws_options (calls (run Rich themed_run)) h) "progressColor" =
         prop (theme_preset (currentTheme (run Rich themed_run))) "progressColor" ∧
       prop (ws_options (calls (run Rich themed_run)) h) "cursorColor" =
         prop (theme_preset (currentTheme (run Rich themed_run))) "cursorColor".
Proof.
  split; [reflexivity|].
  exact (instance_colours_follow_theme Rich themed_run eq_refl).
Defined.

(** X4: the [Basic] variant creates exactly one visualizer instance, at
    mount, and never another one. *)
Theorem basic_creates_one_instance (es : list (Action * Permission)) :
  let s := run Basic es in
  length (List.filter is_create (calls s)) =
    match phase s with Fresh => 0 | _ => 1 end.
Proof.
  cbv zeta.
  apply (run_ind Basic (λ s,
    length (List.filter is_create (calls s)) =
      match phase s with Fresh => 0 | _ => 1 end)); [reflexivity|].
  intros s s' _ IH Htr. transition_cases Htr;
    try discriminate; try rewrite Hphase in IH; try rewrite Hphase;
    try exact IH; reflexivity.
Qed.

(** X5: in every run, [setOptions], [registerPlugin], [startRecording] and
    [stopRecording] are only ever called on an instance that is live at that
    moment: nothing but [destroy] is called on a destroyed instance. *)
Theorem no_use_after_destroy (v : Variant) (es : list (Action * Permission)) :
  used_while_live (calls (run v es)) = true.
Proof.
  apply (run_ind v (λ s, used_while_live (calls s) = true)); [reflexivity|].
  intros s s' (_ & _ & _ & Hp) IH Htr. transition_cases Htr;
    try (rewrite Hphase in Hp; destruct Hp as [h' [_ Hws' _ Hl _ _]];
         rewrite Hws in Hws'; injection Hws' as <-);
    rewrite ?Hl, ?filter_ne_self; cbn;
    rewrite ?bool_decide_eq_true_2 by (apply list_elem_of_here);
    try exact IH; reflexivity.
Qed.

Lemma live_lt tr h :
  fresh_handles tr = true → h ∈ live tr → (h < length tr)%nat.
Proof.
  induction tr as [|c tr IH]; cbn; [intros _ H; by apply elem_of_nil in H|].
  destruct c; cbn; intros Hf Hin; try (specialize (IH Hf Hin); lia).
  - apply andb_true_iff in Hf as [Hh Hf]. apply bool_decide_eq_true in Hh.
    apply elem_of_cons in Hin as [->|Hin]; [lia|]. specialize (IH Hf Hin). lia.
  - apply list_elem_of_filter in Hin as [_ Hin]. specialize (IH Hf Hin). lia.
Qed.

(** X6: in [Rich], changing to another waveform style calls [destroy] twice
    on the old instance (once in the effect cleanup, once at the start of
    [initializeWaveSurfer], since the ref still points to it), and only then
    creates the new instance, with the current theme and the new style, and
    registers a plugin on it. *)
Theorem waveform_change_destroys_twice
    (es : list (Action * Permission)) (w : WaveformType) (perm : Permission) :
  let s := run Rich es in
  let s' := step Rich s (ClickWaveform w, perm) in
  phase s = Mounted → w ≠ currentWaveform s →
  ∃ h n earlier,
    wavesurferRef s = Some h ∧ n ≠ h ∧
    wavesurferRef s' = Some n ∧ recordRef s' = Some n ∧
    currentWaveform s' = w ∧
    calls s' =
      (CRegisterPlugin n :: CCreate n (createOptions (currentTheme s) w) ::
       CDestroy h :: CDestroy h :: CSetCurrentWaveform w :: earlier)%list ∧
    live (CDestroy h :: CSetCurrentWaveform w :: earlier) = [].
Proof.
  cbv zeta. intros Hphase Hne.
  destruct (Inv_run Rich es) as (_ & Hf & _ & _).
  destruct (run_mounted Rich es Hphase) as [h HM].
  pose proof (MountedInv_ready _ _ HM Hphase) as Hr.
  destruct HM as [_ Hws _ Hl _ _].
  assert (h < length (calls (run Rich es)))%nat as Hlt.
  { apply live_lt; [exact Hf|]. rewrite Hl. apply list_elem_of_here. }
  rewrite (step_waveform_new _ h w perm Hr Hne).
  unfold waveform_clicked, recreated.
  destruct (isRecording (run Rich es)) eqn:Hrec; cbn; rewrite Hws; cbn.
  - eexists h, _, _. split; [reflexivity|].
    split; [|repeat split; try reflexivity; cbn; by rewrite Hl, filter_ne_self].
    lia.
  - eexists h, _, _. split; [reflexivity|].
    split; [|repeat split; try reflexivity; cbn; by rewrite Hl, filter_ne_self].
    lia.
Qed.

Lemma waveform_change_destroys_twice_witness :
  phase recording_component = Mounted ∧
  line ≠ currentWaveform recording_component ∧
  ∃ earlier,
    calls (step Rich recording_component (ClickWaveform line, Granted)) =
      (CRegisterPlugin 12 :: CCreate 12 (createOptions classic line) ::
       CDestroy 0 :: CDestroy 0 :: CSetCurrentWaveform line :: earlier)%list.
Proof.
  split; [reflexivity|]. split; [discriminate|].
  destruct (waveform_change_destroys_twice
              [(Mount, Granted); (ClickRecord, Granted)] line Granted eq_refl
              ltac:(discriminate))
    as (h & n & earlier & Hh & _ & Hn & _ & _ & Hc & _).
  change (Some 0 = Some h) in Hh. injection Hh as <-.
  change (Some 12 = Some n) in Hn. injection Hn as <-.
  exists earlier. exact Hc.
Defined.

(** X7: in [Rich], clicking the waveform style that is already selected
    does not recreate the instance (the effect's dependency did not change);
    while recording it still stops the recording and shows the toast, while
    idle it only sets the state. *)
Theorem reselecting_waveform_keeps_instance
    (es : list (Action * Permission)) (perm : Permission) :
  let s := run Rich es in
  let s' := step Rich s (ClickWaveform (currentWaveform s), perm) in
  phase s = Mounted →
  ∃ h,
    wavesurferRef s = Some h ∧ wavesurferRef s' = Some h ∧
    recordRef s' = Some h ∧
    live (calls s') = [h] ∧
    currentWaveform s' = currentWaveform s ∧
    isRecording s' = false ∧
    capturing (calls s') h = false ∧
    new_calls s s' =
      if isRecording s
      then [CSetCurrentWaveform (currentWaveform s); CToast toast_stopped;
            CSetIsRecording false; CStopRecording h]
      else [CSetCurrentWaveform (currentWaveform s)].
Proof.
  cbv zeta. intros Hphase.
  destruct (run_mounted Rich es Hphase) as [h HM].
  pose proof (MountedInv_ready _ _ HM Hphase) as Hr.
  destruct HM as [_ Hws Hrr Hl Hcap _]. exists h.
  rewrite (step_waveform_same _ h perm Hr). unfold waveform_clicked.
  destruct (isRecording (run Rich es)) eqn:Hrec.
  - erewrite new_calls_app by (by instantiate (1 := [_; _; _; _])).
    cbn. rewrite decide_True by reflexivity. by repeat split.
  - erewrite new_calls_app by (by instantiate (1 := [_])).
    cbn. by repeat split.
Qed.

Lemma reselecting_waveform_keeps_instance_witness :
  phase recording_component = Mounted ∧
  isRecording recording_component = true ∧
  isRecording (step Rich recording_component (ClickWaveform bars, Granted)) = false ∧
  live (calls (step Rich recording_component (ClickWaveform bars, Granted))) = [0].
Proof.
  split; [reflexivity|]. split; [reflexivity|].
  destruct (reselecting_waveform_keeps_instance
              [(Mount, Granted); (ClickRecord, Granted)] Granted eq_refl)
    as (h & Hh & _ & _ & Hl & _ & Hrec & _).
  change (Some 0 = Some h) in Hh. injection Hh as <-.
  split; [exact Hrec | exact Hl].
Defined.

(** X8: with a null plugin ref, [startRecording] shows "Permission denied"
    without any microphone request, whatever the permission would be;
    [stopRecording] throws and leaves the component as it was; and
    [handleWaveformChange], which is not [async], returns normally: while
    recording the chain it started is rejected, so it makes no call and does
    not change the style; while idle it sets the style. *)
Theorem null_plugin_ref (s : Component) (perm : Permission) (w : WaveformType) :
  recordRef s = None →
  startRecording perm s = (Ok tt, emit (CToast toast_denied) s) ∧
  stopRecording s = (Thrown TypeError, s) ∧
  handleWaveformChange w s =
    (Ok tt, if isRecording s then s
            else with_currentWaveform w (emit (CSetCurrentWaveform w) s)).
Proof.
  intros Hp. split; [exact (startRecording_null s perm Hp)|].
  split; [exact (stopRecording_null s Hp)|].
  destruct (isRecording s) eqn:Hrec.
  - unfold handleWaveformChange, detached, get, mbind, M_bind. rewrite Hrec.
    rewrite (stopRecording_null s Hp). reflexivity.
  - exact (handleWaveformChange_idle s w Hrec).
Qed.

Lemma null_plugin_ref_witness :
  recordRef (with_isRecording true initial) = None ∧
  startRecording Granted (with_isRecording true initial) =
    (Ok tt, emit (CToast toast_denied) (with_isRecording true initial)) ∧
  stopRecording (with_isRecording true initial) =
    (Thrown TypeError, with_isRecording true initial) ∧
  handleWaveformChange line (with_isRecording true initial) =
    (Ok tt, with_isRecording true initial).
Proof.
  split; [reflexivity|].
  exact (null_plugin_ref (with_isRecording true initial) Granted line eq_refl).
Defined.

(** X9: every click on the record button of a mounted component shows
    exactly one toast: "stopped" when recording, else "started" or
    "denied" by the permission; and the new recording state is [false] after a
    stop or a denial and [true] after a granted start. *)
Theorem record_button_always_notifies
    (v : Variant) (es : list (Action * Permission)) (perm : Permission) :
  let s := run v es in
  let s' := step v s (ClickRecord, perm) in
  phase s = Mounted →
  List.filter is_toast (new_calls s s') =
    [CToast (if isRecording s then toast_stopped
             else match perm with
                  | Granted => toast_started
                  | Denied => toast_denied
                  end)] ∧
  isRecording s' =
    (if isRecording s then false
     else match perm with Granted => true | Denied => false end).
Proof.
  cbv zeta. intros Hphase.
  destruct (run_mounted v es Hphase) as [h HM].
  pose proof (MountedInv_ready _ _ HM Hphase) as Hr.
  destruct (isRecording (run v es)) eqn:Hrec.
  - rewrite (step_stop v _ h perm Hr Hrec).
    erewrite new_calls_app by (by instantiate (1 := [_; _; _])). done.
  - destruct perm.
    + rewrite (step_start_granted v _ h Hr Hrec).
      erewrite new_calls_app by (by instantiate (1 := [_; _; _])). done.
    + rewrite (step_start_denied v _ h Hr Hrec).
      erewrite new_calls_app by (by instantiate (1 := [_; _])). done.
Qed.

Lemma record_button_always_notifies_witness :
  phase (run Basic [(Mount, Granted)]) = Mounted ∧
  isRecording (step Basic (run Basic [(Mount, Granted)]) (ClickRecord, Denied)) = false.
Proof.
  split; [reflexivity|].
  exact (proj2 (record_button_always_notifies Basic [(Mount, Granted)] Denied eq_refl)).
Defined.



Lemma shape_created tr h t w :
  shape_of (CRegisterPlugin h :: CCreate h (createOptions t w) :: tr) h
           (waveform_preset w).
Proof.
  unfold shape_of. cbn. rewrite decide_True by reflexivity.
  destruct t, w; repeat constructor.
Qed.

Lemma shape_setOptions tr h t o :
  shape_of tr h o → shape_of (CSetOptions h (themeOptions t) :: tr) h o.
Proof.
  unfold shape_of. rewrite !Forall_forall. intros H k Hk. cbn.
  rewrite decide_True by reflexivity.
  rewrite lookup_union_r; [by apply H|].
  rewrite themeOptions_lookup.
  unfold waveform_option_keys in Hk.
  repeat (apply elem_of_cons in Hk as [->|Hk]; [reflexivity|]).
  by apply elem_of_nil in Hk.
Qed.

Lemma shape_other c tr h o :
  touches_options c = false → shape_of tr h o → shape_of (c :: tr) h o.
Proof. destruct c; intros Hc H; try discriminate Hc; exact H. Qed.

(** X11: in [Rich], the live instance of a mounted component has exactly
    the [barWidth], [barGap], [barRadius] and [wave] options of the selected
    waveform preset; with [line] selected it has no [barGap] and no
    [barRadius], whatever style was shown before. *)
Theorem instance_shape_follows_waveform (es : list (Action * Permission)) :
  let s := run Rich es in
  phase s = Mounted →
  ∃ h, wavesurferRef s = Some h ∧
       shape_of (calls s) h (waveform_preset (currentWaveform s)) ∧
       (currentWaveform s = line →
        ws_options (calls s) h !! "barGap" = None ∧
        ws_options (calls s) h !! "barRadius" = None).
Proof.
  cbv zeta.
  assert (∀ s, phase s = Mounted →
               (∃ h, wavesurferRef s = Some h ∧
                     shape_of (calls s) h (waveform_preset (currentWaveform s))) →
               ∃ h, wavesurferRef s = Some h ∧
                    shape_of (calls s) h (waveform_preset (currentWaveform s)) ∧
                    (currentWaveform s = line →
                     ws_options (calls s) h !! "barGap" = None ∧
                     ws_options (calls s) h !! "barRadius" = None)) as Hline.
  { intros s _ (h & Hw & Hs). exists h. split; [exact Hw|]. split; [exact Hs|].
    intros Hl. rewrite Hl in Hs. unfold shape_of, waveform_option_keys in Hs.
    rewrite !Forall_cons in Hs. destruct Hs as (_ & Hg & Hr & _).
    split; [exact Hg | exact Hr]. }
  intros Hphase. apply Hline; [exact Hphase|]. revert Hphase.
  apply (run_ind Rich (λ s,
    phase s = Mounted →
    ∃ h, wavesurferRef s = Some h ∧
         shape_of (calls s) h (waveform_preset (currentWaveform s))));
    [discriminate|].
  intros s s' _ IH Htr. transition_cases Htr; try discriminate;
    try (intros _; specialize (IH Hphase) as (h' & Hws' & IH);
         rewrite Hws in Hws'; injection Hws' as <-).
  all: first
    [ exact IH
    | intros _; exists 0; split; [reflexivity|];
      apply shape_setOptions, shape_created
    | exists h; split; [reflexivity|];
      first [ by repeat apply shape_other
            | by apply shape_setOptions, shape_other ]
    | eexists; split; [reflexivity|]; apply shape_created ].
Qed.

Lemma instance_shape_follows_waveform_witness :
  phase (run Rich shaped_run) = Mounted ∧
  ∃ h, wavesurferRef (run Rich shaped_run) = Some h ∧
       shape_of (calls (run Rich shaped_run)) h
                (waveform_preset (currentWaveform (run Rich shaped_run))) ∧
       (currentWaveform (run Rich shaped_run) = line →
        ws_options (calls (run Rich shaped_run)) h !! "barGap" = None ∧
        ws_options (calls (run Rich shaped_run)) h !! "barRadius" = None).
Proof.
  split; [reflexivity|].
  exact (instance_shape_follows_waveform shaped_run eq_refl).
Defined.

Lemma highlighted_theme s :
  highlighted (themeButtons s) = [theme_key (currentTheme s)].
Proof. unfold themeButtons. by destruct (currentTheme s). Qed.

Lemma highlighted_waveform s :
  highlighted (waveformButtons s) = [waveform_key (currentWaveform s)].
Proof. unfold waveformButtons. by destruct (currentWaveform s). Qed.

(** X12: after a click on a theme button of a mounted component that button
    is the only highlighted theme button and the highlighted waveform button
    is unchanged; in [Rich], after a click on a waveform button that button is
    the only highlighted waveform button and the highlighted theme button is
    unchanged. *)
Theorem clicked_button_is_highlighted
    (v : Variant) (es : list (Action * Permission)) (perm : Permission)
    (b : ButtonView) :
  let s := run v es in
  let s' := step v s (onClick b, perm) in
  phase s = Mounted →
  (In b (themeButtons s) →
   highlighted (themeButtons s') = [label b] ∧
   highlighted (waveformButtons s') = highlighted (waveformButtons s)) ∧
  (v = Rich → In b (waveformButtons s) →
   highlighted (waveformButtons s') = [label b] ∧
   highlighted (themeButtons s') = highlighted (themeButtons s)).
Proof.
  cbv zeta. intros Hphase.
  destruct (run_mounted v es Hphase) as [h HM].
  pose proof (MountedInv_ready _ _ HM Hphase) as Hr.
  destruct HM as [_ Hws _ _ _ _].
  rewrite !highlighted_theme, !highlighted_waveform. split.
  - intros Hb. apply in_map_iff in Hb as (t & <- & _). cbn [onClick label].
    destruct (decide (t = currentTheme (run v es))) as [->|Hne].
    + by rewrite (step_theme_same v _ h perm Hr).
    + by rewrite (step_theme_new v _ h t perm Hr Hne).
  - intros -> Hb. apply in_map_iff in Hb as (w & <- & _). cbn [onClick label].
    destruct (decide (w = currentWaveform (run Rich es))) as [->|Hne].
    + rewrite (step_waveform_same _ h perm Hr). unfold waveform_clicked.
      by destruct (isRecording (run Rich es)).
    + rewrite (step_waveform_new _ h w perm Hr Hne).
      unfold waveform_clicked, recreated.
      destruct (isRecording (run Rich es)); cbn; by rewrite Hws.
Qed.

Lemma clicked_button_is_highlighted_witness :
  phase recording_component = Mounted ∧
  highlighted (waveformButtons
    (step Rich recording_component (ClickWaveform points, Granted))) = ["points"] ∧
  highlighted (themeButtons
    (step Rich recording_component (ClickTheme sunset, Granted))) = ["sunset"].
Proof.
  split; [reflexivity|].
  pose proof (clicked_button_is_highlighted Rich
    [(Mount, Granted); (ClickRecord, Granted)] Granted
    (mkButton "points" "outline" (ClickWaveform points)) eq_refl) as [_ Hw].
  pose proof (clicked_button_is_highlighted Rich
    [(Mount, Granted); (ClickRecord, Granted)] Granted
    (mkButton "sunset" "outline" (ClickTheme sunset)) eq_refl) as [Ht _].
  split.
  - apply Hw; [reflexivity|]. right; right; left; reflexivity.
  - apply Ht. right; right; left; reflexivity.
Defined.

(** X13: the record button and its click agree with the recording state the
    button was rendered from.  On a mounted component whose refs are set:
    while [isRecording] is [true] the button reads "Stop Recording"
    (destructive) and a click calls [stopRecording] on the plugin in
    [recordRef], after which it reads "Start Recording"; while [isRecording]
    is [false] it reads "Start Recording" (default) and a click calls
    [startRecording] on that plugin, after which the label follows the
    outcome. *)
Theorem record_button_label_matches_action
    (v : Variant) (s : Component) (h : Handle) (perm : Permission) :
  let s' := step v s (onClick (recordButton s), perm) in
  ready s h →
  if isRecording s
  then label (recordButton s) = "Stop Recording" ∧
       look (recordButton s) = "destructive" ∧
       last (new_calls s s') = Some (CStopRecording h) ∧
       label (recordButton s') = "Start Recording"
  else label (recordButton s) = "Start Recording" ∧
       look (recordButton s) = "default" ∧
       last (new_calls s s') = Some (CStartRecording h perm) ∧
       label (recordButton s') =
         match perm with
         | Granted => "Stop Recording"
         | Denied => "Start Recording"
         end.
Proof.
  cbv zeta. intros Hr.
  change (onClick (recordButton s)) with ClickRecord.
  destruct (isRecording s) eqn:Hrec.
  - rewrite (step_stop v _ h perm Hr Hrec).
    erewrite new_calls_app by (by instantiate (1 := [_; _; _])).
    unfold recordButton. rewrite Hrec. done.
  - destruct perm.
    + rewrite (step_start_granted v _ h Hr Hrec).
      erewrite new_calls_app by (by instantiate (1 := [_; _; _])).
      unfold recordButton. rewrite Hrec. done.
    + rewrite (step_start_denied v _ h Hr Hrec).
      erewrite new_calls_app by (by instantiate (1 := [_; _])).
      unfold recordButton. rewrite Hrec. cbn. rewrite Hrec. done.
Qed.

Lemma record_button_label_matches_action_witness :
  ready recording_component 0 ∧
  label (recordButton recording_component) = "Stop Recording" ∧
  last (new_calls recording_component
          (step Rich recording_component (ClickRecord, Granted))) =
    Some (CStopRecording 0) ∧
  label (recordButton
    (step Rich recording_component (ClickRecord, Granted))) = "Start Recording".
Proof.
  assert (ready recording_component 0) as Hr by (repeat split; reflexivity).
  split; [exact Hr|].
  pose proof (record_button_label_matches_action Rich recording_component 0
                Granted Hr) as H.
  cbv zeta in H.
  change (isRecording recording_component) with true in H.
  destruct H as (H1 & _ & H3 & H4). split; [exact H1|]. split; [exact H3 | exact H4].
Defined.

(** X14: without a container element the mount effects of both variants do
    nothing (no instance, no plugin, no [setOptions]), and a later
    [startRecording] only shows "Permission denied". *)
Theorem no_container_no_instance (s : Component) (perm : Permission) :
  containerRef s = None → wavesurferRef s = None →
  exec (initializeWaveSurfer perm;; themeEffect) s = s ∧
  exec (basicMountEffect;; themeEffect) s = s ∧
  (recordRef s = None →
   exec (startRecording perm)
        (exec (initializeWaveSurfer perm;; themeEffect) s) =
     emit (CToast toast_denied) s).
Proof.
  intros Hc Hw.
  assert (exec (initializeWaveSurfer perm;; themeEffect) s = s) as E.
  { unfold exec, mbind, M_bind.
    rewrite (initializeWaveSurfer_no_container s perm Hc).
    by rewrite (themeEffect_null s Hw). }
  split; [exact E|]. split.
  - assert (basicMountEffect s = (Ok tt, s)) as B
      by (run_m; rewrite Hc; reflexivity).
    unfold exec, mbind, M_bind. rewrite B.
    by rewrite (themeEffect_null s Hw).
  - intros Hr. rewrite E. unfold exec.
    by rewrite (startRecording_null s perm Hr).
Qed.

Lemma no_container_no_instance_witness :
  containerRef initial = None ∧ wavesurferRef initial = None ∧
  exec (initializeWaveSurfer Granted;; themeEffect) initial = initial.
Proof.
  split; [reflexivity|]. split; [reflexivity|].
  exact (proj1 (no_container_no_instance initial Granted eq_refl eq_refl)).
Defined.
